(** * Pebble-MultiTZs: the three-timezone watch face (src/main.c)

    A shallow embedding of [timezone_layer_update], the per-panel redraw
    callback, together with the static zone table it is run on.  The callback
    shifts the file-scope clock value [now] in place to the zone's wall-clock
    time, formats it, decides the AM/PM flag, puts [now] back and then issues
    five calls on the host's graphics context.  The three handlers
    [handle_init], [handle_tick] and [handle_deinit] follow, over a state that
    adds the zone array and a record of the other host calls. *)

From Stdlib Require Import ZArith Lia List String Bool.
From ExtLib Require Import Structures.Monad Structures.MonadState.
From ExtLib Require Import Data.Monads.StateMonad.
Import ListNotations.
Import MonadNotation.
Local Open Scope Z_scope.
Local Open Scope monad_scope.

(** ** C [int] arithmetic

    [int] is 32 bits wide on the watch.  C leaves a signed result outside the
    range undefined; the model takes the two's complement result, as the
    target does.  [/] and [%] truncate toward zero, which is [Z.quot] and
    [Z.rem]. *)
Module Int.

Definition min_signed : Z := - 2 ^ 31.
Definition max_signed : Z := 2 ^ 31 - 1.
Definition modulus : Z := 2 ^ 32.

Definition in_range (z : Z) : Prop := min_signed <= z <= max_signed.

Definition wrap (z : Z) : Z := (z - min_signed) mod modulus + min_signed.

Definition add (a b : Z) : Z := wrap (a + b).
Definition sub (a b : Z) : Z := wrap (a - b).
Definition mul (a b : Z) : Z := wrap (a * b).
Definition div (a b : Z) : Z := wrap (Z.quot a b).
Definition rem (a b : Z) : Z := Z.rem a b.

(** Narrowing to the [int16_t] fields of [GPoint] and [GSize]. *)
Definition to_int16 (z : Z) : Z := (z + 2 ^ 15) mod 2 ^ 16 - 2 ^ 15.

End Int.

(** ** Host types (pebble_os.h)

    The SDK header is not part of the repository; the types below carry the
    fields the callback reads and writes. *)

(** [PblTm]: the broken-down time the tick event delivers; every field is an
    [int]. *)
Record PblTm : Type := mkPblTm {
  tm_sec : Z;
  tm_min : Z;
  tm_hour : Z;
  tm_mday : Z;
  tm_mon : Z;
  tm_year : Z;
  tm_wday : Z;
  tm_yday : Z;
  tm_isdst : Z
}.

(** [t.tm_min = v] and [t.tm_hour = v]. *)
Definition set_tm_min (t : PblTm) (v : Z) : PblTm :=
  mkPblTm (tm_sec t) v (tm_hour t) (tm_mday t) (tm_mon t) (tm_year t)
          (tm_wday t) (tm_yday t) (tm_isdst t).

Definition set_tm_hour (t : PblTm) (v : Z) : PblTm :=
  mkPblTm (tm_sec t) (tm_min t) v (tm_mday t) (tm_mon t) (tm_year t)
          (tm_wday t) (tm_yday t) (tm_isdst t).

Inductive GColor : Type := GColorBlack | GColorWhite | GColorClear.

Inductive GTextOverflowMode : Type :=
  | GTextOverflowModeWordWrap
  | GTextOverflowModeTrailingEllipsis.

Inductive GTextAlignment : Type :=
  | GTextAlignmentLeft
  | GTextAlignmentCenter
  | GTextAlignmentRight.

Record GPoint : Type := mkGPoint { x : Z; y : Z }.
Record GSize : Type := mkGSize { w : Z; h : Z }.
Record GRectT : Type := mkGRect { origin : GPoint; size : GSize }.

(** The [GRect(x, y, w, h)] macro: four [int] expressions stored into
    [int16_t] fields. *)
Definition GRect (x0 y0 w0 h0 : Z) : GRectT :=
  mkGRect (mkGPoint (Int.to_int16 x0) (Int.to_int16 y0))
          (mkGSize (Int.to_int16 w0) (Int.to_int16 h0)).

(** A font handle is opaque to the program. *)
Definition GFont : Type := Z.

(** [Layer]: the frame in the parent's coordinates and the bounds the
    callback reads its size from. *)
Record Layer : Type := mkLayer { frame : GRectT; bounds : GRectT }.

(** [layer_init(&layer, frame)]: the bounds start at the origin with the
    frame's size. *)
Definition layer_init (r : GRectT) : Layer :=
  mkLayer r (mkGRect (mkGPoint 0 0) (size r)).

(** What the host has been asked to paint.  The colour in force at the call is
    recorded with it; the last two arguments of [graphics_fill_rect] are the
    corner radius and corner mask, and the layout cache of
    [graphics_text_draw] is always [NULL]. *)
Inductive drawing : Type :=
  | FillRect (c : GColor) (r : GRectT) (radius mask : Z)
  | TextDraw (c : GColor) (text : string) (font : GFont) (box : GRectT)
             (overflow : GTextOverflowMode) (align : GTextAlignment).

(** [GContext]: the two colour registers and the drawings issued so far,
    oldest first. *)
Record GContext : Type := mkGContext {
  fill_color : GColor;
  text_color : GColor;
  drawn : list drawing
}.

(** The two host queries the callback makes: the 12h/24h display mode and the
    time formatter (buffer size, format, time). *)
Record Host : Type := mkHost {
  clock_is_24h_style : bool;
  string_format_time : Z -> string -> PblTm -> string
}.

(** ** Program data *)

(** [timezone_t] (main.c:31-36). *)
Record timezone_t : Type := mkTimezone {
  name : string;
  offset : Z;
  layer : Layer
}.

Definition SCREEN_HEIGHT : Z := 168.
Definition SCREEN_WIDTH : Z := 144.

(** Local timezone GMT offset (main.c:40). *)
Definition gmt_offset : Z := 8 * 60.

Definition NUM_TIMEZONES : Z := 3.
Definition LAYER_HEIGHT : Z := Z.quot SCREEN_HEIGHT NUM_TIMEZONES.

(** The frame [handle_init] gives panel [i] (main.c:133). *)
Definition panel_layer (i : Z) : Layer :=
  layer_init (GRect 0 (Int.mul i LAYER_HEIGHT) SCREEN_WIDTH LAYER_HEIGHT).

(** The zone table (main.c:45-50), with the layers as initialised. *)
Definition timezones : list timezone_t :=
  [ mkTimezone "US Central" (-6 * 60) (panel_layer 0);
    mkTimezone "US Eastern" (-5 * 60) (panel_layer 1);
    mkTimezone "India" (5 * 60 + 30) (panel_layer 2) ].

(** [timezones[i]]. *)
Definition zone (i : nat) : timezone_t :=
  nth i timezones (mkTimezone "" 0 (layer_init (GRect 0 0 0 0))).

(** The state the callback runs in: the file-scope variables [now],
    [font_thin] and [font_thick], and the graphics context behind [ctx]. *)
Record world : Type := mkWorld {
  now : PblTm;
  font_thin : GFont;
  font_thick : GFont;
  gctx : GContext
}.

Definition set_now (s : world) (t : PblTm) : world :=
  mkWorld t (font_thin s) (font_thick s) (gctx s).

Definition set_gctx (s : world) (c : GContext) : world :=
  mkWorld (now s) (font_thin s) (font_thick s) c.

(** ** The zone-time computation (main.c:65-80)

    Each block is a function of the clock value; [off] is [tz->offset] and
    [gmt] the local offset. *)

(** [now.tm_min += (tz->offset - gmt_offset) % 60;] *)
Definition add_minute_delta (off gmt : Z) (t : PblTm) : PblTm :=
  set_tm_min t (Int.add (tm_min t) (Int.rem (Int.sub off gmt) 60)).

(** The tests of the [if] / [else if] on lines 67 and 72. *)
Definition carry_taken (t : PblTm) : bool := 60 <? tm_min t.
Definition borrow_taken (t : PblTm) : bool := tm_min t <? 0.

Definition minute_carry (t : PblTm) : PblTm :=
  if carry_taken t then
    let t1 := set_tm_hour t (Int.add (tm_hour t) 1) in
    set_tm_min t1 (Int.sub (tm_min t1) 60)
  else if borrow_taken t then
    let t1 := set_tm_hour t (Int.sub (tm_hour t) 1) in
    set_tm_min t1 (Int.add (tm_min t1) 60)
  else t.

(** [now.tm_hour += (tz->offset - gmt_offset) / 60;] *)
Definition add_hour_delta (off gmt : Z) (t : PblTm) : PblTm :=
  set_tm_hour t (Int.add (tm_hour t) (Int.div (Int.sub off gmt) 60)).

(** The tests of the two [if]s on lines 79 and 80. *)
Definition overflow_taken (t : PblTm) : bool := 24 <? tm_hour t.
Definition underflow_taken (t : PblTm) : bool := tm_hour t <? 0.

Definition hour_wrap (t : PblTm) : PblTm :=
  let t1 := if overflow_taken t then set_tm_hour t (Int.sub (tm_hour t) 24)
            else t in
  if underflow_taken t1 then set_tm_hour t1 (Int.add (tm_hour t1) 24) else t1.

(** The clock value the panel shows: lines 65-80 in order. *)
Definition zone_time (off gmt : Z) (t : PblTm) : PblTm :=
  hour_wrap (add_hour_delta off gmt (minute_carry (add_minute_delta off gmt t))).

(** [const int is_pm = (now.tm_hour > 12);] *)
Definition is_pm_of (t : PblTm) : bool := 12 <? tm_hour t.

(** ** Statements and host calls as state transformers *)

Definition proc : Type -> Type := state world.

(** An assignment to fields of the file-scope [now]. *)
Definition assign_now (f : PblTm -> PblTm) : proc unit :=
  s <- get ;; put (set_now s (f (now s))).

(** A call on the graphics context behind [ctx]. *)
Definition on_ctx (f : GContext -> GContext) : proc unit :=
  s <- get ;; put (set_gctx s (f (gctx s))).

Definition graphics_context_set_fill_color (c : GColor) : proc unit :=
  on_ctx (fun g => mkGContext c (text_color g) (drawn g)).

Definition graphics_context_set_text_color (c : GColor) : proc unit :=
  on_ctx (fun g => mkGContext (fill_color g) c (drawn g)).

Definition graphics_fill_rect (r : GRectT) (radius mask : Z) : proc unit :=
  on_ctx (fun g =>
    mkGContext (fill_color g) (text_color g)
               (drawn g ++ [FillRect (fill_color g) r radius mask])).

Definition graphics_text_draw (text : string) (font : GFont) (box : GRectT)
    (overflow : GTextOverflowMode) (align : GTextAlignment) : proc unit :=
  on_ctx (fun g =>
    mkGContext (fill_color g) (text_color g)
               (drawn g ++ [TextDraw (text_color g) text font box overflow align])).

(** ** The panel redraw callback (main.c:58-106)

    [tz] is the entry recovered from [me] by [container_of]; [sizeof(buf)] is
    32. *)
Definition timezone_layer_update (H : Host) (tz : timezone_t) : proc unit :=
  orig_hour <- gets (fun s => tm_hour (now s)) ;;
  orig_min <- gets (fun s => tm_min (now s)) ;;
  assign_now (add_minute_delta (offset tz) gmt_offset) ;;
  assign_now minute_carry ;;
  assign_now (add_hour_delta (offset tz) gmt_offset) ;;
  assign_now hour_wrap ;;
  buf <- gets (fun s =>
           if clock_is_24h_style H
           then string_format_time H 32 "%H:%M" (now s)
           else string_format_time H 32 "%I:%M" (now s)) ;;
  is_pm <- gets (fun s => is_pm_of (now s)) ;;
  assign_now (fun t => set_tm_hour t orig_hour) ;;
  assign_now (fun t => set_tm_min t orig_min) ;;
  let w := w (size (bounds (layer tz))) in
  let h := h (size (bounds (layer tz))) in
  graphics_context_set_fill_color (if is_pm then GColorBlack else GColorWhite) ;;
  graphics_context_set_text_color (if is_pm then GColorWhite else GColorBlack) ;;
  graphics_fill_rect (GRect 0 0 w h) 0 0 ;;
  font <- gets font_thin ;;
  graphics_text_draw (name tz) font (GRect 0 0 w (Int.div h 3))
    GTextOverflowModeTrailingEllipsis GTextAlignmentCenter ;;
  font <- gets font_thick ;;
  graphics_text_draw buf font
    (GRect 0 (Int.div h 3) w (Int.div (Int.mul 2 h) 3))
    GTextOverflowModeTrailingEllipsis GTextAlignmentCenter.

(** The host runs the callback on a panel: the state it leaves behind. *)
Definition redraw (H : Host) (tz : timezone_t) (s : world) : world :=
  execState (timezone_layer_update H tz) s.

(** ** Reading the result off the callback *)

(** A wall-clock time as the tick event delivers it. *)
Definition valid_time (t : PblTm) : Prop :=
  0 <= tm_hour t <= 23 /\ 0 <= tm_min t <= 59.

(** The text handed to the formatter's caller for the shifted clock [t]. *)
Definition time_text (H : Host) (t : PblTm) : string :=
  if clock_is_24h_style H
  then string_format_time H 32 "%H:%M" t
  else string_format_time H 32 "%I:%M" t.

(** The three drawings of one panel, for a shifted clock value [t]. *)
Definition panel_drawings (H : Host) (tz : timezone_t) (thin thick : GFont)
    (t : PblTm) : list drawing :=
  let w := w (size (bounds (layer tz))) in
  let h := h (size (bounds (layer tz))) in
  let bg := if is_pm_of t then GColorBlack else GColorWhite in
  let fg := if is_pm_of t then GColorWhite else GColorBlack in
  [ FillRect bg (GRect 0 0 w h) 0 0;
    TextDraw fg (name tz) thin (GRect 0 0 w (Int.div h 3))
      GTextOverflowModeTrailingEllipsis GTextAlignmentCenter;
    TextDraw fg (time_text H t) thick
      (GRect 0 (Int.div h 3) w (Int.div (Int.mul 2 h) 3))
      GTextOverflowModeTrailingEllipsis GTextAlignmentCenter ].

(** The paired colour. *)
Definition inverse (c : GColor) : GColor :=
  match c with
  | GColorBlack => GColorWhite
  | GColorWhite => GColorBlack
  | GColorClear => GColorClear
  end.

(** A clock value with the given hour and minute (the calendar fields are
    not read by the computation). *)
Definition clock (hh mm : Z) : PblTm := mkPblTm 0 mm hh 1 0 113 0 0 0.

(** The host services every dirty panel in turn. *)
Definition redraw_all (H : Host) (tzs : list timezone_t) (s : world) : world :=
  fold_left (fun s' tz => redraw H tz s') tzs s.

(** The drawings one invocation adds to the context's record. *)
Definition issued (H : Host) (tz : timezone_t) (s : world) : list drawing :=
  skipn (List.length (drawn (gctx s))) (drawn (gctx (redraw H tz s))).

(** The minute of the day a clock value stands for. *)
Definition minute_of_day (t : PblTm) : Z := 60 * tm_hour t + tm_min t.

(** ** Geometry of what is drawn *)

(** The rectangle a drawing is confined to. *)
Definition box_of (d : drawing) : GRectT :=
  match d with
  | FillRect _ r _ _ => r
  | TextDraw _ _ _ b _ _ => b
  end.

(** A pixel lies in a rectangle: left and top edge included, right and bottom
    edge excluded. *)
Definition inside (r : GRectT) (px py : Z) : bool :=
  (x (origin r) <=? px) && (px <? x (origin r) + w (size r)) &&
  (y (origin r) <=? py) && (py <? y (origin r) + h (size r)).

(** ** The other handlers (main.c:108-147) *)

(** Calls on the host other than drawing, and the store to
    [tz->layer.update_proc]; [i] stands for [&timezones[i].layer]. *)
Inductive host_call : Type :=
  | WindowInit (debug_name : string)
  | WindowStackPush (animated : bool)
  | WindowSetBackgroundColor (c : GColor)
  | ResourceInitCurrentApp
  | LayerSetUpdateProc (i : nat)
  | LayerAddChild (i : nat)
  | LayerMarkDirty (i : nat)
  | FontsUnloadCustomFont (f : GFont).

(** The whole program state: the variables the callback works on, the array
    [timezones] and the host calls made so far, oldest first. *)
Record app : Type := mkApp {
  vars : world;
  table : list timezone_t;
  calls : list host_call
}.

(** What the host hands to [handle_init]: the current time, the two resource
    ids of the generated resource header, and the font loader. *)
Record Boot : Type := mkBoot {
  get_time : PblTm;
  RESOURCE_ID_FONT_DSDIGI_18 : Z;
  RESOURCE_ID_FONT_DSDIGIT_34 : Z;
  resource_get_handle : Z -> Z;
  fonts_load_custom_font : Z -> GFont
}.

(** The array as its initialiser leaves it (main.c:45-50): names and offsets
    given, the layers zeroed. *)
Definition zero_rect : GRectT := mkGRect (mkGPoint 0 0) (mkGSize 0 0).

Definition static_timezones : list timezone_t :=
  [ mkTimezone "US Central" (-6 * 60) (mkLayer zero_rect zero_rect);
    mkTimezone "US Eastern" (-5 * 60) (mkLayer zero_rect zero_rect);
    mkTimezone "India" (5 * 60 + 30) (mkLayer zero_rect zero_rect) ].

(** The program before [handle_init]: statics zeroed, nothing called. *)
Definition static_app (g : GContext) : app :=
  mkApp (mkWorld (mkPblTm 0 0 0 0 0 0 0 0 0) 0 0 g) static_timezones [].

(** [timezones[i].layer = l]. *)
Fixpoint set_layer (i : nat) (l : Layer) (tzs : list timezone_t)
    : list timezone_t :=
  match tzs, i with
  | [], _ => []
  | tz :: rest, O => mkTimezone (name tz) (offset tz) l :: rest
  | tz :: rest, S j => tz :: set_layer j l rest
  end.

(** [for (int i = 0 ; i < NUM_TIMEZONES ; i++) body] *)
Definition for_each_timezone (body : nat -> app -> app) (a : app) : app :=
  fold_left (fun a' i => body i a') (seq 0 (Z.to_nat NUM_TIMEZONES)) a.

Definition call (c : host_call) (a : app) : app :=
  mkApp (vars a) (table a) (calls a ++ [c]).

(** [handle_tick] (main.c:108-114). *)
Definition handle_tick (tick_time : PblTm) (a : app) : app :=
  let a1 := mkApp (set_now (vars a) tick_time) (table a) (calls a) in
  for_each_timezone (fun i => call (LayerMarkDirty i)) a1.

(** The loop body of [handle_init] (main.c:132-137). *)
Definition init_panel (i : nat) (a : app) : app :=
  let a1 := mkApp (vars a)
                  (set_layer i (panel_layer (Z.of_nat i)) (table a))
                  (calls a) in
  let a2 := call (LayerSetUpdateProc i) a1 in
  let a3 := call (LayerAddChild i) a2 in
  call (LayerMarkDirty i) a3.

(** [handle_init] (main.c:116-139). *)
Definition handle_init (B : Boot) (a : app) : app :=
  let a1 := mkApp (set_now (vars a) (get_time B)) (table a) (calls a) in
  let a2 := call (WindowInit "Main") a1 in
  let a3 := call (WindowStackPush true) a2 in
  let a4 := call (WindowSetBackgroundColor GColorBlack) a3 in
  let a5 := call ResourceInitCurrentApp a4 in
  let thin :=
    fonts_load_custom_font B (resource_get_handle B (RESOURCE_ID_FONT_DSDIGI_18 B)) in
  let a6 := mkApp (mkWorld (now (vars a5)) thin (font_thick (vars a5))
                           (gctx (vars a5)))
                  (table a5) (calls a5) in
  let thick :=
    fonts_load_custom_font B (resource_get_handle B (RESOURCE_ID_FONT_DSDIGIT_34 B)) in
  let a7 := mkApp (mkWorld (now (vars a6)) (font_thin (vars a6)) thick
                           (gctx (vars a6)))
                  (table a6) (calls a6) in
  for_each_timezone init_panel a7.

(** [handle_deinit] (main.c:141-147). *)
Definition handle_deinit (a : app) : app :=
  let a1 := call (FontsUnloadCustomFont (font_thin (vars a))) a in
  call (FontsUnloadCustomFont (font_thick (vars a1))) a1.

(** What the host's event loop does between [handle_init] and
    [handle_deinit]: it delivers a tick, or runs the update procedure of the
    layer of [timezones[i]]. *)
Inductive event : Type :=
  | Tick (tick_time : PblTm)
  | Update (i : nat).

Definition dispatch (H : Host) (e : event) (a : app) : app :=
  match e with
  | Tick t => handle_tick t a
  | Update i =>
      match nth_error (table a) i with
      | Some tz => mkApp (redraw H tz (vars a)) (table a) (calls a)
      | None => a
      end
  end.

Definition run (H : Host) (es : list event) (a : app) : app :=
  fold_left (fun a' e => dispatch H e a') es a.

(** The time of the last tick in [es], or [t0] when there is none. *)
Definition last_tick (t0 : PblTm) (es : list event) : PblTm :=
  fold_left (fun t e => match e with Tick t' => t' | Update _ => t end) es t0.

(** The drawings a run of events should leave: each update of panel [i]
    shows the zone time of the latest tick before it. *)
Fixpoint shown (H : Host) (thin thick : GFont) (tzs : list timezone_t)
    (t : PblTm) (es : list event) : list drawing :=
  match es with
  | [] => []
  | Tick t' :: es' => shown H thin thick tzs t' es'
  | Update i :: es' =>
      match nth_error tzs i with
      | Some tz =>
          panel_drawings H tz thin thick (zone_time (offset tz) gmt_offset t)
      | None => []
      end ++ shown H thin thick tzs t es'
  end.

(** * Properties *)

(** ** Arithmetic that stays inside [int] *)

Lemma Int_wrap_small (z : Z) : Int.in_range z -> Int.wrap z = z.
Proof.
  unfold Int.in_range, Int.wrap, Int.min_signed, Int.max_signed, Int.modulus.
  change (2 ^ 31) with 2147483648. change (2 ^ 32) with 4294967296.
  intros Hz. rewrite Z.mod_small by lia. lia.
Qed.

Ltac in_int :=
  unfold Int.in_range, Int.min_signed, Int.max_signed;
  change (2 ^ 31) with 2147483648; lia.

(** Truncating division by 60: the remainder carries the dividend's sign. *)
Lemma quot_rem_60 (d : Z) :
  exists q r, Z.quot d 60 = q /\ Z.rem d 60 = r /\ d = 60 * q + r /\
              (0 <= d -> 0 <= r < 60) /\ (d <= 0 -> -60 < r <= 0).
Proof.
  exists (Z.quot d 60), (Z.rem d 60).
  repeat split; Z.quot_rem_to_equations; lia.
Qed.

Ltac unwrap :=
  repeat match goal with
  | |- context [Int.wrap ?z] => rewrite (Int_wrap_small z) by in_int
  end.

Ltac unwrap_hyps :=
  repeat match goal with
  | H : context [Int.wrap ?z] |- _ =>
      rewrite (Int_wrap_small z) in H by in_int
  end.

Ltac split_tests :=
  repeat match goal with
  | |- context [?a <? ?b] => destruct (Z.ltb_spec a b)
  end.

Ltac fields :=
  cbv beta iota zeta delta
    [tm_sec tm_min tm_hour tm_mday tm_mon tm_year tm_wday tm_yday tm_isdst
     set_tm_hour set_tm_min].

Ltac open_blocks :=
  unfold zone_time, hour_wrap, overflow_taken, underflow_taken, add_hour_delta,
    minute_carry, carry_taken, borrow_taken, add_minute_delta, is_pm_of;
  fields.

Ltac open_int := unfold Int.add, Int.sub, Int.div, Int.mul, Int.rem.

(** ** The clock value is put back *)

(** Lines 93-94 applied to whatever the computation left in [now]. *)
Lemma restore_after_zone_time (off gmt : Z) (t : PblTm) :
  set_tm_min (set_tm_hour (zone_time off gmt t) (tm_hour t)) (tm_min t) = t.
Proof.
  destruct t. open_blocks.
  repeat match goal with
  | |- context [if ?b then _ else _] => destruct b; fields
  end; reflexivity.
Qed.

(** The callback in closed form: [now] and the fonts as on entry, both colour
    registers set, three drawings added. *)
Lemma redraw_closed_form (H : Host) (tz : timezone_t) (s : world) :
  redraw H tz s =
  let t := zone_time (offset tz) gmt_offset (now s) in
  mkWorld (now s) (font_thin s) (font_thick s)
    (mkGContext (if is_pm_of t then GColorBlack else GColorWhite)
                (if is_pm_of t then GColorWhite else GColorBlack)
                (drawn (gctx s)
                 ++ panel_drawings H tz (font_thin s) (font_thick s) t)).
Proof.
  unfold redraw, timezone_layer_update, execState. cbn.
  unfold set_gctx, set_now.
  cbn [now font_thin font_thick gctx fill_color text_color drawn].
  change (hour_wrap (add_hour_delta (offset tz) 480
            (minute_carry (add_minute_delta (offset tz) 480 (now s)))))
    with (zone_time (offset tz) 480 (now s)).
  rewrite restore_after_zone_time.
  unfold panel_drawings, time_text.
  rewrite <- !app_assoc. reflexivity.
Qed.

(** ** Range of the computed time *)

(** C1, as stated, fails: with the device at UTC-12 and a zone at UTC+14 the
    delta is 26 hours, the single correction of line 79 takes 24 of them off,
    and 23:00 is shown with hour 25. *)
Lemma zone_time_leaves_range_beyond_a_day :
  valid_time (clock 23 0) /\
  tm_hour (zone_time 840 (-720) (clock 23 0)) = 25 /\
  ~ valid_time (zone_time 840 (-720) (clock 23 0)).
Proof.
  assert (E : zone_time 840 (-720) (clock 23 0) = clock 25 0)
    by (vm_compute; reflexivity).
  rewrite E. unfold valid_time, clock. fields. lia.
Qed.

(** C1, amended: for a valid local time and offsets at most a day apart, the
    computed time has its minute in [0,59] and its hour in [0,23] whenever the
    minute sum is not exactly 60 and the hour sum is not exactly 24. *)
Theorem zone_time_in_range (off gmt : Z) (t : PblTm) :
  valid_time t ->
  -1440 <= off - gmt <= 1440 ->
  tm_min (add_minute_delta off gmt t) <> 60 ->
  tm_hour (add_hour_delta off gmt (minute_carry (add_minute_delta off gmt t)))
    <> 24 ->
  valid_time (zone_time off gmt t).
Proof.
  intros [Hh Hm] Hd. destruct t as [sec m hr mday mon yr wd yd dst].
  revert Hh Hm. unfold valid_time. open_blocks. open_int. intros Hh Hm.
  rewrite (Int_wrap_small (off - gmt)) by in_int.
  destruct (quot_rem_60 (off - gmt)) as (q & r & -> & -> & Hqr & Hpos & Hneg).
  unwrap.
  repeat (split_tests; fields; unwrap); unwrap_hyps; lia.
Qed.

(** The India entry at local 14:05 meets every hypothesis. *)
Lemma zone_time_in_range_witness :
  valid_time (zone_time 330 480 (clock 14 5)).
Proof.
  apply (zone_time_in_range 330 480 (clock 14 5)).
  - unfold valid_time, clock. fields. lia.
  - lia.
  - vm_compute. discriminate.
  - vm_compute. discriminate.
Defined.

(** ** The two boundaries of the carry and the wrap *)

(** The test on line 67 is [> 60]: a minute of exactly 60 passes both tests
    and is left alone. *)
Lemma minute_carry_keeps_sixty (t : PblTm) :
  tm_min t = 60 -> minute_carry t = t.
Proof.
  intros E. unfold minute_carry, carry_taken, borrow_taken. rewrite E.
  reflexivity.
Qed.

(** The test on line 79 is [> 24]: an hour of exactly 24 passes both tests
    and is left alone. *)
Lemma hour_wrap_keeps_twenty_four (t : PblTm) :
  tm_hour t = 24 -> hour_wrap t = t.
Proof.
  intros E. unfold hour_wrap, overflow_taken, underflow_taken. rewrite E.
  change (24 <? 24) with false. cbv beta iota zeta. rewrite E. reflexivity.
Qed.

(** C2: the code at local 10:30 with a zone half an hour ahead (offset 510
    against the compiled 480).  The minute sum is exactly 60, the carry test
    is false, and the panel time is hour 10, minute 60, where the claim has
    11:00. *)
Theorem minute_sum_of_sixty_is_not_carried :
  tm_min (add_minute_delta 510 gmt_offset (clock 10 30)) = 60 /\
  carry_taken (add_minute_delta 510 gmt_offset (clock 10 30)) = false /\
  zone_time 510 gmt_offset (clock 10 30) = clock 10 60.
Proof. repeat split; vm_compute; reflexivity. Qed.

(** C3: the code at local 23:30 with a zone one hour ahead (offset 540 against
    the compiled 480).  The hour sum is exactly 24, the overflow test is
    false, and the panel time is hour 24, minute 30, where the claim has
    00:30.  The other boundary, 00:10 with a zone one hour behind, does wrap
    to 23:10. *)
Theorem hour_sum_of_twenty_four_is_not_wrapped :
  overflow_taken
    (add_hour_delta 540 gmt_offset
       (minute_carry (add_minute_delta 540 gmt_offset (clock 23 30)))) = false /\
  zone_time 540 gmt_offset (clock 23 30) = clock 24 30 /\
  zone_time 420 gmt_offset (clock 0 10) = clock 23 10.
Proof. repeat split; vm_compute; reflexivity. Qed.

(** ** The AM/PM flag *)

(** C4: the flag is (hour > 12) of the shifted clock; hour 12 gives AM, hour
    13 gives PM, hour 0 gives AM.  The flag is what selects the panel's fill
    colour, and the three hours are reached by the India panel at local 14:35
    and 15:35 and by the US Eastern panel at local 13:05. *)
Theorem is_pm_is_hour_above_twelve (H : Host) (tz : timezone_t) (s : world)
    (t : PblTm) :
  (is_pm_of t = true <-> 12 < tm_hour t) /\
  is_pm_of (set_tm_hour t 12) = false /\
  is_pm_of (set_tm_hour t 13) = true /\
  is_pm_of (set_tm_hour t 0) = false /\
  fill_color (gctx (redraw H tz s)) =
    (if is_pm_of (zone_time (offset tz) gmt_offset (now s))
     then GColorBlack else GColorWhite) /\
  (tm_hour (zone_time (offset (zone 2)) gmt_offset (clock 14 35)) = 12 /\
   is_pm_of (zone_time (offset (zone 2)) gmt_offset (clock 14 35)) = false) /\
  (tm_hour (zone_time (offset (zone 2)) gmt_offset (clock 15 35)) = 13 /\
   is_pm_of (zone_time (offset (zone 2)) gmt_offset (clock 15 35)) = true) /\
  (tm_hour (zone_time (offset (zone 1)) gmt_offset (clock 13 5)) = 0 /\
   is_pm_of (zone_time (offset (zone 1)) gmt_offset (clock 13 5)) = false).
Proof.
  split; [unfold is_pm_of; apply Z.ltb_lt |].
  rewrite redraw_closed_form.
  repeat split; vm_compute; reflexivity.
Qed.

(** ** The shared clock value across redraws *)

Lemma redraw_globals (H : Host) (tz : timezone_t) (s : world) :
  now (redraw H tz s) = now s /\
  font_thin (redraw H tz s) = font_thin s /\
  font_thick (redraw H tz s) = font_thick s.
Proof. rewrite redraw_closed_form. repeat split. Qed.

Lemma redraw_all_globals (H : Host) (tzs : list timezone_t) (s : world) :
  now (redraw_all H tzs s) = now s /\
  font_thin (redraw_all H tzs s) = font_thin s /\
  font_thick (redraw_all H tzs s) = font_thick s.
Proof.
  revert s. induction tzs as [| tz tzs IH]; intros s.
  - repeat split.
  - cbn [redraw_all fold_left]. fold (redraw_all H tzs (redraw H tz s)).
    destruct (IH (redraw H tz s)) as (-> & -> & ->).
    apply redraw_globals.
Qed.

(** C5: after an invocation of the callback [now] is what it was on entry,
    every field of it, and so it is after any run of redraws: the next panel
    reads the value the tick handler stored. *)
Theorem redraw_restores_now (H : Host) (tz : timezone_t) (s : world) :
  now (redraw H tz s) = now s /\
  forall tzs, now (redraw_all H tzs s) = now s.
Proof.
  split.
  - apply redraw_globals.
  - intros tzs. apply redraw_all_globals.
Qed.

(** ** What one invocation draws *)

Lemma skipn_length_app {A : Type} (l ds : list A) :
  skipn (List.length l) (l ++ ds) = ds.
Proof. induction l as [| a l IH]; [reflexivity | exact IH]. Qed.

Lemma issued_closed_form (H : Host) (tz : timezone_t) (s : world) :
  issued H tz s =
  panel_drawings H tz (font_thin s) (font_thick s)
    (zone_time (offset tz) gmt_offset (now s)).
Proof.
  unfold issued. rewrite redraw_closed_form. cbn [gctx drawn].
  apply skipn_length_app.
Qed.

(** ** The shipped table at 14:05 *)

(** C6: at local 14:05 with the compiled local offset of 480, the India entry
    (offset 330, delta -150) gives 11:35 and the US Eastern entry (offset
    -300, delta -780) gives 01:05, both with the flag false; the calendar
    fields of the clock play no part.  The India panel is drawn for a clock
    reading 11:35 on a white ground. *)
Theorem india_and_us_eastern_at_1405 (H : Host) (s : world) (t : PblTm) :
  gmt_offset = 480 /\
  (name (zone 2) = "India"%string /\ offset (zone 2) = 330 /\
   Int.sub (offset (zone 2)) gmt_offset = -150 /\
   zone_time (offset (zone 2)) gmt_offset (set_tm_min (set_tm_hour t 14) 5)
     = set_tm_min (set_tm_hour t 11) 35 /\
   is_pm_of
     (zone_time (offset (zone 2)) gmt_offset (set_tm_min (set_tm_hour t 14) 5))
     = false) /\
  (name (zone 1) = "US Eastern"%string /\ offset (zone 1) = -300 /\
   Int.sub (offset (zone 1)) gmt_offset = -780 /\
   zone_time (offset (zone 1)) gmt_offset (set_tm_min (set_tm_hour t 14) 5)
     = set_tm_min (set_tm_hour t 1) 5 /\
   is_pm_of
     (zone_time (offset (zone 1)) gmt_offset (set_tm_min (set_tm_hour t 14) 5))
     = false) /\
  issued H (zone 2) (set_now s (set_tm_min (set_tm_hour t 14) 5))
    = panel_drawings H (zone 2) (font_thin s) (font_thick s)
        (set_tm_min (set_tm_hour t 11) 35) /\
  fill_color (gctx (redraw H (zone 2)
                      (set_now s (set_tm_min (set_tm_hour t 14) 5))))
    = GColorWhite.
Proof.
  assert (Ei : zone_time (offset (zone 2)) gmt_offset
                 (set_tm_min (set_tm_hour t 14) 5)
               = set_tm_min (set_tm_hour t 11) 35)
    by (destruct t; vm_compute; reflexivity).
  assert (Eu : zone_time (offset (zone 1)) gmt_offset
                 (set_tm_min (set_tm_hour t 14) 5)
               = set_tm_min (set_tm_hour t 1) 5)
    by (destruct t; vm_compute; reflexivity).
  rewrite issued_closed_form, redraw_closed_form.
  cbn [set_now now font_thin font_thick gctx fill_color].
  rewrite Ei, Eu.
  repeat split; destruct t; vm_compute; reflexivity.
Qed.

(** ** A zone at the local offset *)

(** C7: when the zone's offset is the local offset (a delta of 0), a valid
    time comes back unchanged, hour and minute and every other field. *)
Theorem zone_time_same_offset (o : Z) (t : PblTm) :
  valid_time t -> zone_time o o t = t.
Proof.
  destruct t as [sec m hr mday mon yr wd yd dst].
  unfold valid_time. fields. intros [Hh Hm].
  open_blocks. open_int. rewrite Z.sub_diag.
  rewrite (Int_wrap_small 0) by in_int.
  change (Z.rem 0 60) with 0. change (Z.quot 0 60) with 0.
  rewrite (Int_wrap_small 0) by in_int. rewrite !Z.add_0_r.
  unwrap.
  repeat (split_tests; fields; unwrap); unwrap_hyps;
    first [reflexivity | exfalso; lia].
Qed.

(** Local 14:05 seen from a zone at the local offset of 480. *)
Lemma zone_time_same_offset_witness :
  zone_time 480 480 (clock 14 5) = clock 14 5.
Proof.
  apply (zone_time_same_offset 480 (clock 14 5)).
  unfold valid_time, clock. fields. lia.
Defined.

(** ** The shipped configuration *)

Lemma shipped_deltas :
  map (fun tz => Int.sub (offset tz) gmt_offset) timezones = [-840; -780; -150].
Proof. vm_compute. reflexivity. Qed.

(** The computation for a delta already evaluated: the three shipped deltas
    never reach the carry or the overflow test with a true condition. *)
Lemma shipped_delta_in_range (off : Z) (t : PblTm) :
  In (Int.sub off gmt_offset) [-840; -780; -150] ->
  valid_time t ->
  carry_taken (add_minute_delta off gmt_offset t) = false /\
  overflow_taken
    (add_hour_delta off gmt_offset
       (minute_carry (add_minute_delta off gmt_offset t))) = false /\
  valid_time (zone_time off gmt_offset t).
Proof.
  intros Hd. destruct t as [sec m hr mday mon yr wd yd dst].
  unfold valid_time. fields. intros [Hh Hm].
  open_blocks. unfold Int.add, Int.div, Int.rem.
  cbn [In] in Hd.
  destruct Hd as [<- | [<- | [<- | []]]]; unfold Int.sub.
  - change (Z.rem (-840) 60) with 0. change (Z.quot (-840) 60) with (-14).
    unwrap. repeat (split_tests; fields; unwrap); unwrap_hyps;
      repeat split; first [reflexivity | lia].
  - change (Z.rem (-780) 60) with 0. change (Z.quot (-780) 60) with (-13).
    unwrap. repeat (split_tests; fields; unwrap); unwrap_hyps;
      repeat split; first [reflexivity | lia].
  - change (Z.rem (-150) 60) with (-30). change (Z.quot (-150) 60) with (-2).
    unwrap. repeat (split_tests; fields; unwrap); unwrap_hyps;
      repeat split; first [reflexivity | lia].
Qed.

(** C8: the table holds the offsets -360, -300 and 330 and the local offset
    is 480; for each entry and every valid time the carry test (minute > 60)
    and the overflow test (hour > 24) are false, and the computed time has
    its hour in [0,23] and its minute in [0,59]. *)
Theorem shipped_zones_stay_in_range (tz : timezone_t) (t : PblTm) :
  In tz timezones ->
  valid_time t ->
  (map offset timezones = [-360; -300; 330] /\ gmt_offset = 480) /\
  carry_taken (add_minute_delta (offset tz) gmt_offset t) = false /\
  overflow_taken
    (add_hour_delta (offset tz) gmt_offset
       (minute_carry (add_minute_delta (offset tz) gmt_offset t))) = false /\
  valid_time (zone_time (offset tz) gmt_offset t).
Proof.
  intros Hin Ht. split; [split; reflexivity |].
  apply shipped_delta_in_range; [| exact Ht].
  rewrite <- shipped_deltas.
  apply (in_map (fun tz' => Int.sub (offset tz') gmt_offset)). exact Hin.
Qed.

(** The India entry one minute before local midnight. *)
Lemma shipped_zones_stay_in_range_witness :
  valid_time (zone_time (offset (zone 2)) gmt_offset (clock 23 59)).
Proof.
  apply (shipped_zones_stay_in_range (zone 2) (clock 23 59)).
  - unfold zone, timezones. cbn [nth In]. right. right. left. reflexivity.
  - unfold valid_time, clock. fields. lia.
Defined.

(** ** Colours and drawings of a panel *)

(** C9: with the flag false the fill colour is white and the text colour
    black, with the flag true the fill colour is black and the text colour
    white; the rectangle is filled in the fill colour and both texts are drawn
    in the text colour, which is the inverse of the fill colour. *)
Theorem panel_colours_are_paired (H : Host) (tz : timezone_t) (s : world) :
  let t := zone_time (offset tz) gmt_offset (now s) in
  let g := gctx (redraw H tz s) in
  let w := w (size (bounds (layer tz))) in
  let h := h (size (bounds (layer tz))) in
  fill_color g = (if is_pm_of t then GColorBlack else GColorWhite) /\
  text_color g = (if is_pm_of t then GColorWhite else GColorBlack) /\
  text_color g = inverse (fill_color g) /\
  issued H tz s =
    [ FillRect (fill_color g) (GRect 0 0 w h) 0 0;
      TextDraw (text_color g) (name tz) (font_thin s)
        (GRect 0 0 w (Int.div h 3))
        GTextOverflowModeTrailingEllipsis GTextAlignmentCenter;
      TextDraw (text_color g) (time_text H t) (font_thick s)
        (GRect 0 (Int.div h 3) w (Int.div (Int.mul 2 h) 3))
        GTextOverflowModeTrailingEllipsis GTextAlignmentCenter ].
Proof.
  intros t g w h. subst g. rewrite issued_closed_form, redraw_closed_form.
  fold t. cbn [gctx fill_color text_color]. unfold panel_drawings.
  fold w h. destruct (is_pm_of t); repeat split.
Qed.

(** ** Redrawing again *)

(** C10: the drawings an invocation issues and the colour registers it leaves
    are determined by [now], the two font handles (set once by [handle_init]),
    the zone entry and the host's display mode and formatter, whatever the
    graphics context held before; the program's variables are left as they
    were.  Run a second time in the state the first run left, the callback
    issues the same drawings again and changes nothing else. *)
Theorem redraw_is_repeatable (H : Host) (tz : timezone_t) (t : PblTm)
    (thin thick : GFont) (g g' : GContext) :
  let s := mkWorld t thin thick g in
  let s' := mkWorld t thin thick g' in
  issued H tz s = issued H tz s' /\
  fill_color (gctx (redraw H tz s)) = fill_color (gctx (redraw H tz s')) /\
  text_color (gctx (redraw H tz s)) = text_color (gctx (redraw H tz s')) /\
  (now (redraw H tz s) = t /\ font_thin (redraw H tz s) = thin /\
   font_thick (redraw H tz s) = thick) /\
  issued H tz (redraw H tz s) = issued H tz s /\
  redraw H tz (redraw H tz s) =
    mkWorld t thin thick
      (mkGContext (fill_color (gctx (redraw H tz s)))
                  (text_color (gctx (redraw H tz s)))
                  (drawn (gctx (redraw H tz s)) ++ issued H tz s)).
Proof.
  intros s s'. rewrite !issued_closed_form.
  rewrite (redraw_closed_form H tz (redraw H tz s)).
  rewrite !redraw_closed_form. subst s s'.
  cbn [now font_thin font_thick gctx fill_color text_color drawn].
  repeat split.
Qed.

(** * Further properties of the code *)

(** ** The zone-time computation as arithmetic on the minute of the day *)

(** Lines 65-80 move the minute of the day by the delta, up to one day either
    way: the remainder goes to the minute, the carry or borrow keeps the sum,
    the quotient goes to the hour and the correction is by 24 hours. *)
Lemma zone_time_minute_of_day (off gmt : Z) (t : PblTm) :
  valid_time t ->
  Int.in_range (off - gmt) ->
  exists k : Z,
    -1 <= k <= 1 /\
    minute_of_day (zone_time off gmt t)
    = minute_of_day t + (off - gmt) + 1440 * k.
Proof.
  intros [Hh Hm] Hd. destruct t as [sec m hr mday mon yr wd yd dst].
  revert Hh Hm. unfold minute_of_day. open_blocks. open_int. intros Hh Hm.
  rewrite (Int_wrap_small (off - gmt)) by exact Hd.
  unfold Int.in_range, Int.min_signed, Int.max_signed in Hd.
  change (2 ^ 31) with 2147483648 in Hd.
  destruct (quot_rem_60 (off - gmt)) as (q & r & -> & -> & Hqr & Hpos & Hneg).
  unwrap.
  repeat (split_tests; fields; unwrap); unwrap_hyps;
    first [ exists 0; lia | exists 1; lia | exists (-1); lia ].
Qed.

(** The computation writes [tm_min] and [tm_hour] only. *)
Lemma zone_time_writes_hour_and_minute (off gmt : Z) (t : PblTm) :
  zone_time off gmt t =
  set_tm_min (set_tm_hour t (tm_hour (zone_time off gmt t)))
             (tm_min (zone_time off gmt t)).
Proof.
  destruct t. open_blocks.
  repeat match goal with
  | |- context [if ?b then _ else _] => destruct b; fields
  end; reflexivity.
Qed.

Lemma minute_of_day_eq (t : PblTm) :
  minute_of_day t = 60 * tm_hour t + tm_min t.
Proof. reflexivity. Qed.

Lemma set_hour_minute_same (t : PblTm) :
  set_tm_min (set_tm_hour t (tm_hour t)) (tm_min t) = t.
Proof. destruct t. reflexivity. Qed.

Lemma set_hour_minute_twice (t : PblTm) (a b c d : Z) :
  set_tm_min (set_tm_hour (set_tm_min (set_tm_hour t a) b) c) d
  = set_tm_min (set_tm_hour t c) d.
Proof. reflexivity. Qed.

(** X1: for a valid local time and a delta that fits an [int], the computed
    clock stands for the local minute of the day plus the delta, modulo the
    1440 minutes of a day, also where its hour or minute leaves the range. *)
Theorem zone_time_shifts_modulo_a_day (off gmt : Z) (t : PblTm) :
  valid_time t ->
  Int.in_range (off - gmt) ->
  minute_of_day (zone_time off gmt t) mod 1440
  = (minute_of_day t + (off - gmt)) mod 1440.
Proof.
  intros Ht Hd.
  destruct (zone_time_minute_of_day off gmt t Ht Hd) as (k & _ & E).
  rewrite E, (Z.mul_comm 1440 k). apply Z_mod_plus_full.
Qed.

(** The US Eastern delta at local 14:05. *)
Lemma zone_time_shifts_modulo_a_day_witness :
  minute_of_day (zone_time (-300) 480 (clock 14 5)) mod 1440
  = (minute_of_day (clock 14 5) + (-300 - 480)) mod 1440.
Proof.
  apply (zone_time_shifts_modulo_a_day (-300) 480 (clock 14 5)).
  - unfold valid_time, clock. fields. lia.
  - in_int.
Defined.

(** A clock reading within the day is fixed by its minute of the day taken
    modulo 1440. *)
Lemma clock_of_minute_of_day (hh mm n k : Z) :
  0 <= hh <= 23 -> 0 <= mm <= 59 ->
  60 * hh + mm = n + 1440 * k ->
  hh = (n mod 1440) / 60 /\ mm = (n mod 1440) mod 60.
Proof.
  intros Hh Hm E.
  assert (N : n mod 1440 = 60 * hh + mm).
  { replace n with (60 * hh + mm + (- k) * 1440) by lia.
    rewrite Z_mod_plus_full. apply Z.mod_small. lia. }
  rewrite N. split.
  - apply Z.div_unique with (r := mm); lia.
  - apply Z.mod_unique with (q := hh); lia.
Qed.

(** X2: whenever the computed clock is itself a valid time, it is the exact
    one: its hour and minute are those of the local minute of the day plus
    the delta, reduced modulo 1440. *)
Theorem valid_zone_time_is_exact (off gmt : Z) (t : PblTm) :
  valid_time t ->
  Int.in_range (off - gmt) ->
  valid_time (zone_time off gmt t) ->
  tm_hour (zone_time off gmt t)
    = ((minute_of_day t + (off - gmt)) mod 1440) / 60 /\
  tm_min (zone_time off gmt t)
    = ((minute_of_day t + (off - gmt)) mod 1440) mod 60.
Proof.
  intros Ht Hd Hv.
  destruct (zone_time_minute_of_day off gmt t Ht Hd) as (k & _ & E).
  revert Hv E. generalize (zone_time off gmt t) as z. intros z [Hh Hm] E.
  rewrite minute_of_day_eq in E.
  exact (clock_of_minute_of_day _ _ _ k Hh Hm E).
Qed.

(** The US Eastern delta at local 14:05, whose result 01:05 is valid. *)
Lemma valid_zone_time_is_exact_witness :
  tm_hour (zone_time (-300) 480 (clock 14 5))
    = ((minute_of_day (clock 14 5) + (-300 - 480)) mod 1440) / 60 /\
  tm_min (zone_time (-300) 480 (clock 14 5))
    = ((minute_of_day (clock 14 5) + (-300 - 480)) mod 1440) mod 60.
Proof.
  apply (valid_zone_time_is_exact (-300) 480 (clock 14 5)).
  - unfold valid_time, clock. fields. lia.
  - in_int.
  - unfold valid_time. vm_compute. intuition discriminate.
Defined.

(** X3: for a valid local time and offsets at most a day apart the computed
    minute lies in [0,60] and the hour in [0,24]; the minute is 60 exactly
    when the minute sum of line 65 is 60, and the hour is 24 exactly when the
    hour sum of line 78 is 24. *)
Theorem zone_time_within_a_day (off gmt : Z) (t : PblTm) :
  valid_time t ->
  -1440 <= off - gmt <= 1440 ->
  (0 <= tm_min (zone_time off gmt t) <= 60 /\
   0 <= tm_hour (zone_time off gmt t) <= 24) /\
  (tm_min (zone_time off gmt t) = 60 <->
   tm_min (add_minute_delta off gmt t) = 60) /\
  (tm_hour (zone_time off gmt t) = 24 <->
   tm_hour (add_hour_delta off gmt
              (minute_carry (add_minute_delta off gmt t))) = 24).
Proof.
  intros [Hh Hm] Hd. destruct t as [sec m hr mday mon yr wd yd dst].
  revert Hh Hm. open_blocks. open_int. intros Hh Hm.
  rewrite (Int_wrap_small (off - gmt)) by in_int.
  destruct (quot_rem_60 (off - gmt)) as (q & r & -> & -> & Hqr & Hpos & Hneg).
  unwrap.
  repeat (split_tests; fields; unwrap); unwrap_hyps; lia.
Qed.

(** Local 10:30 with a zone half an hour ahead: the minute sum is 60. *)
Lemma zone_time_within_a_day_witness :
  tm_min (zone_time 510 480 (clock 10 30)) = 60 <->
  tm_min (add_minute_delta 510 480 (clock 10 30)) = 60.
Proof.
  apply (zone_time_within_a_day 510 480 (clock 10 30)).
  - unfold valid_time, clock. fields. lia.
  - lia.
Defined.

(** X4: shifting to a zone and back with the offsets exchanged returns the
    clock value one started from, provided both computed clocks are valid
    times. *)
Theorem zone_time_there_and_back (off gmt : Z) (t : PblTm) :
  valid_time t ->
  Int.in_range (off - gmt) ->
  Int.in_range (gmt - off) ->
  valid_time (zone_time off gmt t) ->
  valid_time (zone_time gmt off (zone_time off gmt t)) ->
  zone_time gmt off (zone_time off gmt t) = t.
Proof.
  intros Ht Hd Hd' Ht1 Ht2.
  destruct (zone_time_minute_of_day off gmt t Ht Hd) as (k & Hk & E).
  destruct (zone_time_minute_of_day gmt off _ Ht1 Hd') as (k' & Hk' & E').
  pose proof (zone_time_writes_hour_and_minute off gmt t) as W.
  pose proof (zone_time_writes_hour_and_minute gmt off (zone_time off gmt t))
    as W'.
  revert Ht1 Ht2 E E' W W'.
  generalize (zone_time gmt off (zone_time off gmt t)) as z2.
  generalize (zone_time off gmt t) as z1.
  intros z1 z2 _ [Hh2 Hm2] E E' W W'. destruct Ht as [Hh Hm].
  rewrite !minute_of_day_eq in E, E'.
  assert (Eh : tm_hour z2 = tm_hour t) by lia.
  assert (Em : tm_min z2 = tm_min t) by lia.
  rewrite W', Eh, Em, W.
  rewrite set_hour_minute_twice. apply set_hour_minute_same.
Qed.

(** Local 14:05 to the India offset and back. *)
Lemma zone_time_there_and_back_witness :
  zone_time 480 330 (zone_time 330 480 (clock 14 5)) = clock 14 5.
Proof.
  apply (zone_time_there_and_back 330 480 (clock 14 5)).
  - unfold valid_time, clock. fields. lia.
  - in_int.
  - in_int.
  - unfold valid_time. vm_compute. intuition discriminate.
  - unfold valid_time. vm_compute. intuition discriminate.
Defined.

(** X5: the computation never touches the seconds or the calendar fields:
    a panel whose time falls on the previous or next day keeps the local
    date. *)
Theorem zone_time_keeps_the_date (off gmt : Z) (t : PblTm) :
  tm_sec (zone_time off gmt t) = tm_sec t /\
  tm_mday (zone_time off gmt t) = tm_mday t /\
  tm_mon (zone_time off gmt t) = tm_mon t /\
  tm_year (zone_time off gmt t) = tm_year t /\
  tm_wday (zone_time off gmt t) = tm_wday t /\
  tm_yday (zone_time off gmt t) = tm_yday t /\
  tm_isdst (zone_time off gmt t) = tm_isdst t.
Proof.
  pose proof (zone_time_writes_hour_and_minute off gmt t) as W.
  revert W. generalize (zone_time off gmt t) as z. intros z ->.
  destruct t. repeat split.
Qed.

(** X6: each of the three shipped panels shows, for every valid local time,
    exactly the local minute of the day plus its delta, reduced modulo
    1440. *)
Theorem shipped_panels_show_the_exact_time (tz : timezone_t) (t : PblTm) :
  In tz timezones ->
  valid_time t ->
  tm_hour (zone_time (offset tz) gmt_offset t)
    = ((minute_of_day t + (offset tz - gmt_offset)) mod 1440) / 60 /\
  tm_min (zone_time (offset tz) gmt_offset t)
    = ((minute_of_day t + (offset tz - gmt_offset)) mod 1440) mod 60.
Proof.
  intros Hin Ht.
  assert (Hd : Int.in_range (offset tz - gmt_offset)).
  { cbn [In timezones] in Hin.
    destruct Hin as [<- | [<- | [<- | []]]]; cbn [offset];
      unfold gmt_offset; in_int. }
  assert (Hv : valid_time (zone_time (offset tz) gmt_offset t)).
  { apply shipped_delta_in_range; [| exact Ht].
    rewrite <- shipped_deltas.
    apply (in_map (fun tz' => Int.sub (offset tz') gmt_offset)). exact Hin. }
  destruct (zone_time_minute_of_day (offset tz) gmt_offset t Ht Hd)
    as (k & _ & E).
  revert Hv E. generalize (zone_time (offset tz) gmt_offset t) as z.
  intros z [Hh Hm] E. rewrite minute_of_day_eq in E.
  exact (clock_of_minute_of_day _ _ _ k Hh Hm E).
Qed.

(** The US Central panel at local 09:41. *)
Lemma shipped_panels_show_the_exact_time_witness :
  tm_hour (zone_time (offset (zone 0)) gmt_offset (clock 9 41))
    = ((minute_of_day (clock 9 41) + (offset (zone 0) - gmt_offset))
       mod 1440) / 60 /\
  tm_min (zone_time (offset (zone 0)) gmt_offset (clock 9 41))
    = ((minute_of_day (clock 9 41) + (offset (zone 0) - gmt_offset))
       mod 1440) mod 60.
Proof.
  apply (shipped_panels_show_the_exact_time (zone 0) (clock 9 41)).
  - unfold zone, timezones. cbn [nth In]. left. reflexivity.
  - unfold valid_time, clock. fields. lia.
Defined.

(** ** Where the texts go *)

Lemma to_int16_small (z : Z) : -32768 <= z <= 32767 -> Int.to_int16 z = z.
Proof.
  intros Hz. unfold Int.to_int16.
  change (2 ^ 15) with 32768. change (2 ^ 16) with 65536.
  rewrite Z.mod_small by lia. lia.
Qed.

Lemma GRect_small (x0 y0 w0 h0 : Z) :
  -32768 <= x0 <= 32767 -> -32768 <= y0 <= 32767 ->
  -32768 <= w0 <= 32767 -> -32768 <= h0 <= 32767 ->
  GRect x0 y0 w0 h0 = mkGRect (mkGPoint x0 y0) (mkGSize w0 h0).
Proof.
  intros. unfold GRect. rewrite !to_int16_small by assumption. reflexivity.
Qed.

(** X7: for a panel whose bounds have a width that fits [int16_t] and a
    height in [0,32767], the fill covers the whole bounds, the name box is the
    top third, the time box starts where the name box ends, and together the
    two boxes leave at most one row at the bottom unused. *)
Theorem panel_boxes_are_stacked (H : Host) (tz : timezone_t) (s : world) :
  let ww := w (size (bounds (layer tz))) in
  let hh := h (size (bounds (layer tz))) in
  -32768 <= ww <= 32767 ->
  0 <= hh <= 32767 ->
  map box_of (issued H tz s) =
    [ mkGRect (mkGPoint 0 0) (mkGSize ww hh);
      mkGRect (mkGPoint 0 0) (mkGSize ww (hh / 3));
      mkGRect (mkGPoint 0 (hh / 3)) (mkGSize ww (2 * hh / 3)) ] /\
  hh - 1 <= hh / 3 + 2 * hh / 3 <= hh.
Proof.
  intros ww hh Hw Hh. rewrite issued_closed_form. unfold panel_drawings.
  fold ww hh. cbn [map box_of]. unfold Int.div, Int.mul.
  rewrite (Int_wrap_small (2 * hh)) by in_int.
  rewrite !Z.quot_div_nonneg by lia.
  assert (B1 : 0 <= hh / 3 <= 32767) by (Z.div_mod_to_equations; lia).
  assert (B2 : 0 <= 2 * hh / 3 <= 32767) by (Z.div_mod_to_equations; lia).
  rewrite !Int_wrap_small by in_int.
  rewrite !GRect_small by lia.
  split; [reflexivity | Z.div_mod_to_equations; lia].
Qed.

(** The India panel as [handle_init] lays it out: 144 by 56. *)
Lemma panel_boxes_are_stacked_witness :
  map box_of (issued (mkHost true (fun _ f _ => f)) (zone 2)
                (mkWorld (clock 14 5) 1 2
                   (mkGContext GColorClear GColorClear []))) =
    [ mkGRect (mkGPoint 0 0) (mkGSize 144 56);
      mkGRect (mkGPoint 0 0) (mkGSize 144 (56 / 3));
      mkGRect (mkGPoint 0 (56 / 3)) (mkGSize 144 (2 * 56 / 3)) ] /\
  56 - 1 <= 56 / 3 + 2 * 56 / 3 <= 56.
Proof.
  apply (panel_boxes_are_stacked (mkHost true (fun _ f _ => f)) (zone 2)
           (mkWorld (clock 14 5) 1 2 (mkGContext GColorClear GColorClear []))).
  - vm_compute. intuition discriminate.
  - vm_compute. intuition discriminate.
Defined.

(** ** Several panels in a row *)

Lemma issued_after_redraw (H : Host) (tz tz' : timezone_t) (s : world) :
  issued H tz' (redraw H tz s) = issued H tz' s.
Proof.
  rewrite !issued_closed_form.
  destruct (redraw_globals H tz s) as (-> & -> & ->). reflexivity.
Qed.

Lemma drawn_after_redraw (H : Host) (tz : timezone_t) (s : world) :
  drawn (gctx (redraw H tz s)) = drawn (gctx s) ++ issued H tz s.
Proof.
  rewrite issued_closed_form, redraw_closed_form. reflexivity.
Qed.

(** X8: redrawing several panels in a row adds, for each panel in turn, just
    the drawings that panel would issue from the starting state alone: no
    panel's redraw changes what a later one draws. *)
Theorem redraw_all_draws_each_panel_alone (H : Host) (tzs : list timezone_t)
    (s : world) :
  drawn (gctx (redraw_all H tzs s))
  = drawn (gctx s) ++ flat_map (fun tz => issued H tz s) tzs.
Proof.
  revert s. induction tzs as [| tz tzs IH]; intros s.
  - cbn [redraw_all fold_left flat_map]. rewrite app_nil_r. reflexivity.
  - cbn [redraw_all fold_left flat_map].
    fold (redraw_all H tzs (redraw H tz s)). rewrite IH.
    rewrite drawn_after_redraw, <- app_assoc. f_equal. f_equal.
    apply flat_map_ext. intros tz'. apply issued_after_redraw.
Qed.

(** ** Start-up *)

(** [handle_init] on the zeroed statics. *)
Lemma handle_init_closed_form (B : Boot) (g : GContext) :
  vars (handle_init B (static_app g)) =
    mkWorld (get_time B)
      (fonts_load_custom_font B
         (resource_get_handle B (RESOURCE_ID_FONT_DSDIGI_18 B)))
      (fonts_load_custom_font B
         (resource_get_handle B (RESOURCE_ID_FONT_DSDIGIT_34 B)))
      g /\
  table (handle_init B (static_app g)) = timezones.
Proof. split; reflexivity. Qed.

Lemma timezones_frames :
  map (fun tz => (frame (layer tz), bounds (layer tz))) timezones =
  [ (mkGRect (mkGPoint 0 0) (mkGSize 144 56),
     mkGRect (mkGPoint 0 0) (mkGSize 144 56));
    (mkGRect (mkGPoint 0 56) (mkGSize 144 56),
     mkGRect (mkGPoint 0 0) (mkGSize 144 56));
    (mkGRect (mkGPoint 0 112) (mkGSize 144 56),
     mkGRect (mkGPoint 0 0) (mkGSize 144 56)) ].
Proof. vm_compute. reflexivity. Qed.

Lemma inside_spec (r : GRectT) (px py : Z) :
  inside r px py = true <->
  x (origin r) <= px < x (origin r) + w (size r) /\
  y (origin r) <= py < y (origin r) + h (size r).
Proof.
  unfold inside. rewrite !andb_true_iff, !Z.leb_le, !Z.ltb_lt. lia.
Qed.

(** X9: after [handle_init] every pixel of the 144 by 168 screen lies in the
    frame of exactly one panel, and each panel's bounds have the size of its
    frame. *)
Theorem panels_tile_the_screen (B : Boot) (g : GContext) (px py : Z) :
  0 <= px < SCREEN_WIDTH ->
  0 <= py < SCREEN_HEIGHT ->
  exists i tz,
    nth_error (table (handle_init B (static_app g))) i = Some tz /\
    inside (frame (layer tz)) px py = true /\
    size (bounds (layer tz)) = size (frame (layer tz)) /\
    forall j tz',
      nth_error (table (handle_init B (static_app g))) j = Some tz' ->
      inside (frame (layer tz')) px py = true -> j = i.
Proof.
  unfold SCREEN_WIDTH, SCREEN_HEIGHT. intros Hx Hy.
  destruct (handle_init_closed_form B g) as [_ ->].
  pose proof timezones_frames as F.
  destruct timezones as [| z0 [| z1 [| z2 [| z3 rest]]]]; try discriminate F.
  cbn [map] in F. injection F as F0 B0 F1 B1 F2 B2.
  assert (C : py < 56 \/ 56 <= py < 112 \/ 112 <= py) by lia.
  destruct C as [C | [C | C]];
    [exists 0%nat, z0 | exists 1%nat, z1 | exists 2%nat, z2];
    (split; [reflexivity |]);
    (split; [apply inside_spec;
             rewrite ?F0, ?F1, ?F2; cbn [origin size x y w h]; lia |]);
    (split; [rewrite ?F0, ?F1, ?F2, ?B0, ?B1, ?B2; reflexivity |]);
    intros [| [| [| j]]] tz' E I; cbn [nth_error] in E;
    try (destruct j; discriminate E);
    injection E as <-; apply inside_spec in I;
    rewrite ?F0, ?F1, ?F2 in I; cbn [origin size x y w h] in I;
    first [reflexivity | exfalso; lia].
Qed.

(** The bottom right pixel of the screen. *)
Lemma panels_tile_the_screen_witness :
  exists i tz,
    nth_error (table (handle_init (mkBoot (clock 9 41) 1 2 id id)
                        (static_app (mkGContext GColorClear GColorClear []))))
      i = Some tz /\
    inside (frame (layer tz)) 143 167 = true /\
    size (bounds (layer tz)) = size (frame (layer tz)) /\
    forall j tz',
      nth_error (table (handle_init (mkBoot (clock 9 41) 1 2 id id)
                          (static_app (mkGContext GColorClear GColorClear []))))
        j = Some tz' ->
      inside (frame (layer tz')) 143 167 = true -> j = i.
Proof.
  apply (panels_tile_the_screen (mkBoot (clock 9 41) 1 2 id id)
           (mkGContext GColorClear GColorClear []) 143 167).
  - unfold SCREEN_WIDTH. lia.
  - unfold SCREEN_HEIGHT. lia.
Defined.

(** ** The tick handler *)

Lemma handle_tick_closed_form (t : PblTm) (a : app) :
  handle_tick t a =
  mkApp (set_now (vars a) t) (table a)
        (calls a ++ [LayerMarkDirty 0; LayerMarkDirty 1; LayerMarkDirty 2]).
Proof.
  unfold handle_tick, for_each_timezone, call.
  change (Z.to_nat NUM_TIMEZONES) with 3%nat.
  cbn [seq fold_left vars table calls].
  rewrite <- !app_assoc. reflexivity.
Qed.

(** X10: [handle_tick] stores the delivered time in [now], marks the layer
    of each entry of the table dirty once, in index order, draws nothing and
    leaves the table alone; a panel updated next is drawn for the zone time of
    the delivered time, whatever [now] held before. *)
Theorem tick_sets_the_time_every_panel_shows (H : Host) (t : PblTm) (a : app) :
  now (vars (handle_tick t a)) = t /\
  gctx (vars (handle_tick t a)) = gctx (vars a) /\
  table (handle_tick t a) = table a /\
  calls (handle_tick t a)
    = calls a ++ map LayerMarkDirty (seq 0 (Z.to_nat NUM_TIMEZONES)) /\
  forall tz,
    issued H tz (vars (handle_tick t a))
    = panel_drawings H tz (font_thin (vars a)) (font_thick (vars a))
        (zone_time (offset tz) gmt_offset t).
Proof.
  rewrite handle_tick_closed_form. cbn [vars table calls].
  repeat split. intros tz. apply issued_closed_form.
Qed.

(** ** Any run of the event loop *)

Lemma dispatch_effect (H : Host) (e : event) (a : app) :
  now (vars (dispatch H e a)) = last_tick (now (vars a)) [e] /\
  font_thin (vars (dispatch H e a)) = font_thin (vars a) /\
  font_thick (vars (dispatch H e a)) = font_thick (vars a) /\
  table (dispatch H e a) = table a /\
  drawn (gctx (vars (dispatch H e a)))
    = drawn (gctx (vars a))
      ++ shown H (font_thin (vars a)) (font_thick (vars a)) (table a)
           (now (vars a)) [e] /\
  exists marks,
    calls (dispatch H e a) = calls a ++ marks /\
    Forall (fun c => exists i, c = LayerMarkDirty i) marks.
Proof.
  destruct e as [t | i]; cbn [dispatch last_tick fold_left shown].
  - rewrite handle_tick_closed_form. cbn [vars table calls set_now now
      font_thin font_thick gctx]. rewrite app_nil_r.
    repeat split. eexists. split; [reflexivity |].
    repeat constructor; eexists; reflexivity.
  - destruct (nth_error (table a) i) as [tz |]; cbn [vars table calls].
    + destruct (redraw_globals H tz (vars a)) as (-> & -> & ->).
      rewrite redraw_closed_form. cbn [gctx drawn]. rewrite app_nil_r.
      repeat split. exists []. rewrite app_nil_r. split; constructor.
    + rewrite !app_nil_r.
      repeat split. exists []. rewrite app_nil_r. split; constructor.
Qed.

Lemma last_tick_cons (t0 : PblTm) (e : event) (es : list event) :
  last_tick t0 (e :: es) = last_tick (last_tick t0 [e]) es.
Proof. reflexivity. Qed.

Lemma shown_cons (H : Host) (thin thick : GFont) (tzs : list timezone_t)
    (t : PblTm) (e : event) (es : list event) :
  shown H thin thick tzs t (e :: es)
  = shown H thin thick tzs t [e]
    ++ shown H thin thick tzs (last_tick t [e]) es.
Proof.
  destruct e as [t' | i]; cbn [shown last_tick fold_left].
  - reflexivity.
  - rewrite app_nil_r. reflexivity.
Qed.

Lemma run_effect (H : Host) (es : list event) (a : app) :
  now (vars (run H es a)) = last_tick (now (vars a)) es /\
  font_thin (vars (run H es a)) = font_thin (vars a) /\
  font_thick (vars (run H es a)) = font_thick (vars a) /\
  table (run H es a) = table a /\
  drawn (gctx (vars (run H es a)))
    = drawn (gctx (vars a))
      ++ shown H (font_thin (vars a)) (font_thick (vars a)) (table a)
           (now (vars a)) es /\
  exists marks,
    calls (run H es a) = calls a ++ marks /\
    Forall (fun c => exists i, c = LayerMarkDirty i) marks.
Proof.
  revert a. induction es as [| e es IH]; intros a.
  - cbn [run fold_left last_tick shown]. rewrite app_nil_r.
    repeat split. exists []. rewrite app_nil_r. split; constructor.
  - cbn [run fold_left]. fold (run H es (dispatch H e a)).
    destruct (IH (dispatch H e a)) as (En & Ef & Ek & Et & Ed & m2 & Ec & Fm2).
    destruct (dispatch_effect H e a)
      as (En1 & Ef1 & Ek1 & Et1 & Ed1 & m1 & Ec1 & Fm1).
    rewrite En, Ef, Ek, Et, Ed, Ec.
    rewrite En1, Ef1, Ek1, Et1, Ed1, Ec1.
    rewrite (last_tick_cons (now (vars a)) e es).
    rewrite (shown_cons H _ _ _ (now (vars a)) e es), <- !app_assoc.
    repeat split. exists (m1 ++ m2). split; [reflexivity |].
    apply Forall_app. split; assumption.
Qed.

(** X11: through any run of ticks and panel updates [now] is the time of the
    last tick (the starting value when there was none), and the two font
    handles and the table are never changed. *)
Theorem run_keeps_now_at_the_last_tick (H : Host) (es : list event) (a : app) :
  now (vars (run H es a)) = last_tick (now (vars a)) es /\
  font_thin (vars (run H es a)) = font_thin (vars a) /\
  font_thick (vars (run H es a)) = font_thick (vars a) /\
  table (run H es a) = table a.
Proof.
  destruct (run_effect H es a) as (En & Ef & Ek & Et & _).
  repeat split; assumption.
Qed.

(** X12: the drawings a run of ticks and panel updates leaves are, for each
    update in turn, the three drawings of that panel for the zone time of the
    latest tick before it. *)
Theorem run_shows_the_latest_tick (H : Host) (es : list event) (a : app) :
  drawn (gctx (vars (run H es a)))
  = drawn (gctx (vars a))
    ++ shown H (font_thin (vars a)) (font_thick (vars a)) (table a)
         (now (vars a)) es.
Proof. apply (run_effect H es a). Qed.

(** X13: whatever ticks and panel updates run between [handle_init] and
    [handle_deinit], the two fonts unloaded are the two handles the loader
    returned at start-up, thin first, and no font is unloaded before. *)
Theorem deinit_unloads_the_fonts_init_loaded (H : Host) (B : Boot)
    (g : GContext) (es : list event) :
  exists earlier,
    calls (handle_deinit (run H es (handle_init B (static_app g))))
    = earlier
      ++ [ FontsUnloadCustomFont
             (fonts_load_custom_font B
                (resource_get_handle B (RESOURCE_ID_FONT_DSDIGI_18 B)));
           FontsUnloadCustomFont
             (fonts_load_custom_font B
                (resource_get_handle B (RESOURCE_ID_FONT_DSDIGIT_34 B))) ] /\
    forall f, ~ In (FontsUnloadCustomFont f) earlier.
Proof.
  destruct (run_effect H es (handle_init B (static_app g)))
    as (_ & Ef & Ek & _ & _ & marks & Ec & Fm).
  destruct (handle_init_closed_form B g) as [Ev _].
  rewrite Ev in Ef, Ek. cbn [font_thin font_thick] in Ef, Ek.
  exists (calls (run H es (handle_init B (static_app g)))).
  split.
  - unfold handle_deinit, call. cbn [vars table calls].
    rewrite Ef, Ek, <- app_assoc. reflexivity.
  - intros f. rewrite Ec. intros I. apply in_app_or in I. destruct I as [I | I].
    + vm_compute in I. intuition discriminate.
    + rewrite Forall_forall in Fm. destruct (Fm _ I) as [i Ei]. discriminate Ei.
Qed.
